(** * Route53 provider and provider inventory of cloudlist

    Shallow embedding of [pkg/providers/aws/route53.go] (the Route53
    provider) and of the inventory construction [inventory.New] /
    [nameToProvider] that shares the same source file. *)

From Stdlib Require Import String List Bool Arith Lia.
Import ListNotations.
Open Scope string_scope.
Open Scope list_scope.

(** ** Go errors

    [ErrMsg] is an error produced by [fmt.Errorf] or returned by the AWS SDK;
    [ErrWrap msg e] is [errors.Wrap(e, msg)] of [github.com/pkg/errors]. *)
Inductive error : Type :=
| ErrMsg (msg : string)
| ErrWrap (msg : string) (inner : error).

(** [err.Error()]: [errors.Wrap] prints [msg + ": " + inner]. *)
Fixpoint error_string (e : error) : string :=
  match e with
  | ErrMsg m => m
  | ErrWrap m i => m ++ ": " ++ error_string i
  end.

(** ** The schema package *)

(** [schema.Resource]. Fields not set by a composite literal keep Go's zero
    value, so [PrivateIPv4] is [""] when the literal omits it. *)
Record Resource : Type := mkResource {
  Provider : string;
  Profile : string;
  DNSName : string;
  Public : bool;
  PublicIPv4 : string;
  PrivateIPv4 : string
}.

(** [schema.Resources]: the ordered item list of the collection. *)
Definition Resources : Type := list Resource.

(** Modelled from the spec: [Resources.Append] of the schema package (not in
    the sources), which "adds one element" at the end of the collection. *)
Definition Append (acc : Resources) (r : Resource) : Resources :=
  acc ++ [r].

(** Modelled from the spec: [Resources.Merge] of the schema package (not in
    the sources), which "concatenates another collection's elements
    preserving relative order of both operands". *)
Definition Merge (acc : Resources) (other : Resources) : Resources :=
  acc ++ other.

(** ** The Route53 API as the code uses it

    Pointer fields that the code dereferences with [*] are modelled by the
    value the API puts there; [aws.BoolValue] reads [IsTruncated].
    [ResourceRecord.Value] is read through the nil-safe [aws.StringValue],
    so it keeps its pointer shape. *)
Record ResourceRecord : Type := mkResourceRecord {
  Value : option string
}.

Record ResourceRecordSet : Type := mkResourceRecordSet {
  Name : string;
  Type_ : string;
  ResourceRecords : list ResourceRecord
}.

Record ListResourceRecordSetsInput : Type := mkListResourceRecordSetsInput {
  HostedZoneId : string;
  StartRecordName : option string
}.

Record ListResourceRecordSetsOutput : Type := mkListResourceRecordSetsOutput {
  ResourceRecordSets : list ResourceRecordSet;
  sets_IsTruncated : bool;
  NextRecordName : string
}.

Record HostedZone : Type := mkHostedZone {
  Id : string
}.

Record ListHostedZonesInput : Type := mkListHostedZonesInput {
  Marker : option string
}.

Record ListHostedZonesOutput : Type := mkListHostedZonesOutput {
  HostedZones : list HostedZone;
  zones_IsTruncated : bool;
  zones_Marker : string;
  NextMarker : string
}.

(** [req.SetStartRecordName(v)] *)
Definition SetStartRecordName (req : ListResourceRecordSetsInput) (v : string)
  : ListResourceRecordSetsInput :=
  mkListResourceRecordSetsInput (HostedZoneId req) (Some v).

(** [req.SetMarker(v)] *)
Definition SetMarker (req : ListHostedZonesInput) (v : string)
  : ListHostedZonesInput :=
  mkListHostedZonesInput (Some v).

(** [aws.StringValue]: the pointed-to string, or [""] for nil. *)
Definition StringValue (p : option string) : string :=
  match p with Some s => s | None => "" end.

(** The [*route53.Route53] client: one response (or error) per request. *)
Record Route53 : Type := mkRoute53 {
  ListHostedZones : ListHostedZonesInput -> error + ListHostedZonesOutput;
  ListResourceRecordSets :
    ListResourceRecordSetsInput -> error + ListResourceRecordSetsOutput
}.

(** ** Effects: the requests issued, errors returned, and the unbounded
    [for { }] loops

    A computation returns its outcome together with the requests it sent to
    the backend, in order. [Diverge] is the outcome of a loop that has not
    returned within the iteration budget ([fuel]). *)
Inductive request : Type :=
| ReqZones (i : ListHostedZonesInput)
| ReqRecords (i : ListResourceRecordSetsInput).

Inductive outcome (A : Type) : Type :=
| Done (a : A)
| Fail (e : error)
| Diverge.
Arguments Done {A} a.
Arguments Fail {A} e.
Arguments Diverge {A}.

Definition M (A : Type) : Type := (outcome A * list request)%type.

Definition ret {A} (a : A) : M A := (Done a, []).

Definition bind {A B} (m : M A) (f : A -> M B) : M B :=
  match m with
  | (Done a, l1) => let (o, l2) := f a in (o, l1 ++ l2)
  | (Fail e, l1) => (Fail e, l1)
  | (Diverge, l1) => (Diverge, l1)
  end.

Notation "x <- m ;; k" := (bind m (fun x => k))
  (at level 61, m at next level, right associativity).

(** [if err != nil { return nil, errors.Wrap(err, msg) }] *)
Definition wrap {A} (msg : string) (m : M A) : M A :=
  match m with
  | (Fail e, l) => (Fail (ErrWrap msg e), l)
  | x => x
  end.

Definition out_of_fuel {A} : M A := (Diverge, []).

(** One request to the backend, with its result. *)
Definition call_zones (c : Route53) (req : ListHostedZonesInput)
  : M ListHostedZonesOutput :=
  match ListHostedZones c req with
  | inl e => (Fail e, [ReqZones req])
  | inr o => (Done o, [ReqZones req])
  end.

Definition call_records (c : Route53) (req : ListResourceRecordSetsInput)
  : M ListResourceRecordSetsOutput :=
  match ListResourceRecordSets c req with
  | inl e => (Fail e, [ReqRecords req])
  | inr o => (Done o, [ReqRecords req])
  end.

(** ** The provider *)

Record route53Provider : Type := mkroute53Provider {
  profile : string;
  route53 : Route53
}.

Section Route53Provider.

(** [providerName] is a constant of the [aws] package declared outside this
    file; the provider copies it into every resource. *)
Variable providerName : string.

(** [strings.HasSuffix] and [strings.TrimSuffix]. *)
Definition HasSuffix (s suffix : string) : bool :=
  Nat.leb (String.length suffix) (String.length s)
  && String.eqb
       (substring (String.length s - String.length suffix)
          (String.length suffix) s)
       suffix.

Definition TrimSuffix (s suffix : string) : string :=
  if HasSuffix s suffix
  then substring 0 (String.length s - String.length suffix) s
  else s.

(** Body of [for _, item := range sets.ResourceRecordSets]. *)
Definition record_item (d : route53Provider) (acc : Resources)
  (item : ResourceRecordSet) : Resources :=
  if negb (String.eqb (Type_ item) "A") then acc
  else
    let name := TrimSuffix (Name item) "." in
    let ip4 :=
      match ResourceRecords item with
      | r0 :: _ => StringValue (Value r0)
      | [] => ""
      end in
    Append acc (mkResource providerName (profile d) name true ip4 "").

Definition record_items (d : route53Provider) (acc : Resources)
  (items : list ResourceRecordSet) : Resources :=
  fold_left (record_item d) items acc.

(** The [for { }] loop of [listResourceRecords], [acc] (the Go [list]) being the
    collection accumulated so far. *)
Fixpoint records_loop (fuel : nat) (d : route53Provider)
  (req : ListResourceRecordSetsInput) (acc : Resources) : M Resources :=
  match fuel with
  | O => out_of_fuel
  | S fuel' =>
      sets <- wrap "could not list resource_record set"
                (call_records (route53 d) req) ;;
      let acc := record_items d acc (ResourceRecordSets sets) in
      if sets_IsTruncated sets && negb (String.eqb (NextRecordName sets) "")
      then records_loop fuel' d (SetStartRecordName req (NextRecordName sets)) acc
      else ret acc
  end.

Definition listResourceRecords (fuel : nat) (d : route53Provider)
  (zone : string) : M Resources :=
  records_loop fuel d (mkListResourceRecordSetsInput zone None) [].

(** Body of [for _, zone := range zoneOutput.HostedZones]. *)
Fixpoint zones_items (fuel : nat) (d : route53Provider)
  (zones : list HostedZone) (acc : Resources) : M Resources :=
  match zones with
  | [] => ret acc
  | zone :: rest =>
      items <- wrap "could not list hosted zones records"
                 (listResourceRecords fuel d (Id zone)) ;;
      zones_items fuel d rest (Merge acc items)
  end.

(** The [for { }] loop of [GetResource]. *)
Fixpoint zones_loop (fuel : nat) (d : route53Provider)
  (req : ListHostedZonesInput) (acc : Resources) : M Resources :=
  match fuel with
  | O => out_of_fuel
  | S fuel' =>
      zoneOutput <- wrap "could not list hosted zones"
                      (call_zones (route53 d) req) ;;
      acc <- zones_items fuel d (HostedZones zoneOutput) acc ;;
      if zones_IsTruncated zoneOutput
         && negb (String.eqb (NextMarker zoneOutput) "")
      then zones_loop fuel' d (SetMarker req (zones_Marker zoneOutput)) acc
      else ret acc
  end.

Definition GetResource (fuel : nat) (d : route53Provider) : M Resources :=
  zones_loop fuel d (mkListHostedZonesInput None) [].

End Route53Provider.

(** ** The inventory of providers *)

Section InventoryNew.

(** [schema.Provider], [schema.OptionBlock] and its [GetMetadata], and the
    constructors [aws.New], [digitalocean.New], [gcp.New], [scaleway.New]
    live outside this file: the inventory code is embedded for every choice
    of them. A constructor returns a provider or an error. *)
Variable schemaProvider : Type.
Variable OptionBlock : Type.
Variable GetMetadata : OptionBlock -> string -> option string.
Variables aws_New digitalocean_New gcp_New scaleway_New :
  OptionBlock -> error + schemaProvider.

Record Inventory : Type := mkInventory {
  Providers : list schemaProvider
}.

(** [nameToProvider] *)
Definition nameToProvider (value : string) (block : OptionBlock)
  : error + schemaProvider :=
  if String.eqb value "aws" then aws_New block
  else if String.eqb value "do" then digitalocean_New block
  else if String.eqb value "gcp" then gcp_New block
  else if String.eqb value "scw" then scaleway_New block
  else inl (ErrMsg ("invalid provider name found: " ++ value)).

(** A [gologger.Warningf("Could not initialize provider %s %s: %s\n",
    value, profile, err)] line: the provider name, the profile, the error. *)
Definition Warning : Type := (string * string * error)%type.

(** The [for _, block := range options] loop of [New], threading the
    inventory under construction and the warnings logged so far. *)
Fixpoint New_loop (options : list OptionBlock) (inventory : Inventory)
  (log : list Warning) : Inventory * list Warning :=
  match options with
  | [] => (inventory, log)
  | block :: rest =>
      match GetMetadata block "provider" with
      | None => New_loop rest inventory log
      | Some value =>
          let profile := StringValue (GetMetadata block "profile") in
          match nameToProvider value block with
          | inl err => New_loop rest inventory (log ++ [(value, profile, err)])
          | inr provider =>
              New_loop rest (mkInventory (Providers inventory ++ [provider])) log
          end
      end
  end.

(** [New]: the inventory (never an error) and the warnings it logged. *)
Definition New (options : list OptionBlock)
  : (error + Inventory) * list Warning :=
  let (inventory, log) := New_loop options (mkInventory []) [] in
  (inr inventory, log).

(** What the claims about [New] describe, block by block: the provider a
    block resolves to, and the failure a block reports. *)
Definition block_provider (block : OptionBlock) : list schemaProvider :=
  match GetMetadata block "provider" with
  | None => []
  | Some value =>
      match nameToProvider value block with
      | inr p => [p]
      | inl _ => []
      end
  end.

Definition block_failure (block : OptionBlock) : list Warning :=
  match GetMetadata block "provider" with
  | None => []
  | Some value =>
      match nameToProvider value block with
      | inr _ => []
      | inl err => [(value, StringValue (GetMetadata block "profile"), err)]
      end
  end.

End InventoryNew.

Arguments mkInventory {schemaProvider} Providers.
Arguments Providers {schemaProvider} _.

(** ** Reasoning about the request log and the outcome *)

(** The error the backend returns for a request, if any. *)
Definition req_error (c : Route53) (r : request) : option error :=
  match r with
  | ReqZones i =>
      match ListHostedZones c i with inl e => Some e | inr _ => None end
  | ReqRecords i =>
      match ListResourceRecordSets c i with inl e => Some e | inr _ => None end
  end.

(** A failed request is the last request sent, and the computation returns
    the backend's error as transformed by [w]. *)
Definition surfaces {A} (c : Route53) (w : request -> error -> error)
  (m : M A) : Prop :=
  forall pre r post e0,
    snd m = pre ++ r :: post -> req_error c r = Some e0 ->
    post = [] /\ fst m = Fail (w r e0).

(** Every value returned satisfies [Q]. *)
Definition yields {A} (Q : A -> Prop) (m : M A) : Prop :=
  forall a, fst m = Done a -> Q a.

(** The context [GetResource] adds to a failed request's error: zone
    listing, or record listing (wrapped twice, by [listResourceRecords] and
    by [GetResource]). *)
Definition ctx_wrap (r : request) (e : error) : error :=
  match r with
  | ReqZones _ => ErrWrap "could not list hosted zones" e
  | ReqRecords _ =>
      ErrWrap "could not list hosted zones records"
        (ErrWrap "could not list resource_record set" e)
  end.

(** A resource reported as public with no private address. *)
Definition public_no_private (r : Resource) : Prop :=
  Public r = true /\ PrivateIPv4 r = "".

(** ** Concrete backends *)

Module Backends.

Definition rrA (name ip : string) : ResourceRecordSet :=
  mkResourceRecordSet name "A" [mkResourceRecord (Some ip)].

Definition no_zones (req : ListHostedZonesInput)
  : error + ListHostedZonesOutput :=
  inr (mkListHostedZonesOutput [] false "" "").

Definition empty_records (req : ListResourceRecordSetsInput)
  : error + ListResourceRecordSetsOutput :=
  inr (mkListResourceRecordSetsOutput [] false "").

(** Three pages of records (2, 2 and 1 ["A"] records), linked by
    [NextRecordName]. *)
Definition page1 : ListResourceRecordSetsOutput :=
  mkListResourceRecordSetsOutput
    [rrA "a.example.com." "192.0.2.1"; rrA "b.example.com." "192.0.2.2"]
    true "c.example.com.".

Definition page2 : ListResourceRecordSetsOutput :=
  mkListResourceRecordSetsOutput
    [rrA "c.example.com." "192.0.2.3"; rrA "d.example.com." "192.0.2.4"]
    true "e.example.com.".

Definition page3 : ListResourceRecordSetsOutput :=
  mkListResourceRecordSetsOutput [rrA "e.example.com." "192.0.2.5"] false "".

Definition three_pages (req : ListResourceRecordSetsInput)
  : error + ListResourceRecordSetsOutput :=
  match StartRecordName req with
  | None => inr page1
  | Some n =>
      if String.eqb n "c.example.com." then inr page2
      else if String.eqb n "e.example.com." then inr page3
      else inl (ErrMsg "InvalidInput")
  end.

Definition three_pages_provider : route53Provider :=
  mkroute53Provider "prod" (mkRoute53 no_zones three_pages).

(** The resources the three pages normalise to, in page order. *)
Definition expected_three_pages (providerName : string) : Resources :=
  map (fun '(n, ip) => mkResource providerName "prod" n true ip "")
    [("a.example.com", "192.0.2.1"); ("b.example.com", "192.0.2.2");
     ("c.example.com", "192.0.2.3"); ("d.example.com", "192.0.2.4");
     ("e.example.com", "192.0.2.5")].

(** Two pages of zones; as the API does, each response echoes in [Marker]
    the marker of its request ([""] for the first request). *)
Definition zones_page1 : ListHostedZonesOutput :=
  mkListHostedZonesOutput [mkHostedZone "Z1"] true "" "zones-page-2".

Definition zones_page2 : ListHostedZonesOutput :=
  mkListHostedZonesOutput [mkHostedZone "Z2"] false "zones-page-2" "".

Definition two_zone_pages (req : ListHostedZonesInput)
  : error + ListHostedZonesOutput :=
  match Marker req with
  | Some m => if String.eqb m "zones-page-2" then inr zones_page2
              else inr zones_page1
  | None => inr zones_page1
  end.

Definition two_zone_pages_provider : route53Provider :=
  mkroute53Provider "prod" (mkRoute53 two_zone_pages empty_records).

(** Two zones; listing the records of zone [bad] fails. *)
Definition two_zones (req : ListHostedZonesInput)
  : error + ListHostedZonesOutput :=
  inr (mkListHostedZonesOutput [mkHostedZone "Z1"; mkHostedZone "Z2"]
         false "" "").

Definition failing_zone (bad : string) (req : ListResourceRecordSetsInput)
  : error + ListResourceRecordSetsOutput :=
  if String.eqb (HostedZoneId req) bad then inl (ErrMsg "Throttling")
  else inr (mkListResourceRecordSetsOutput [rrA "ok.example.com." "192.0.2.9"]
              false "").

Definition failing_zone_provider (bad : string) : route53Provider :=
  mkroute53Provider "prod" (mkRoute53 two_zones (failing_zone bad)).

(** One zone holding an ["A"] record with a private address. *)
Definition one_zone (req : ListHostedZonesInput)
  : error + ListHostedZonesOutput :=
  inr (mkListHostedZonesOutput [mkHostedZone "Z1"] false "" "").

Definition private_record (req : ListResourceRecordSetsInput)
  : error + ListResourceRecordSetsOutput :=
  inr (mkListResourceRecordSetsOutput [rrA "db.internal.example.com." "10.0.0.5"]
         false "").

Definition private_record_provider : route53Provider :=
  mkroute53Provider "prod" (mkRoute53 one_zone private_record).

(** Zone [Z1] listed in one page, its records being the three pages. *)
Definition three_pages_zone_provider : route53Provider :=
  mkroute53Provider "prod" (mkRoute53 one_zone three_pages).

(** A zone whose only record is a [CNAME]. *)
Definition cname_only (req : ListResourceRecordSetsInput)
  : error + ListResourceRecordSetsOutput :=
  inr (mkListResourceRecordSetsOutput
         [mkResourceRecordSet "www.example.com." "CNAME"
            [mkResourceRecord (Some "example.com.")]]
         false "").

Definition cname_only_provider : route53Provider :=
  mkroute53Provider "prod" (mkRoute53 one_zone cname_only).

(** Configuration blocks as key/value lists, and constructors of which only
    the ["aws"] one succeeds. *)
Definition block_lookup (block : list (string * string)) (key : string)
  : option string :=
  match find (fun kv => String.eqb (fst kv) key) block with
  | Some kv => Some (snd kv)
  | None => None
  end.

Definition ok_New (name : string) (block : list (string * string))
  : error + string :=
  inr name.

Definition missing_key_New (block : list (string * string)) : error + string :=
  inl (ErrMsg "missing credentials").

End Backends.

(** The resources that the record pages answered to the requests of a log
    normalise to, in request order. *)
Definition fetched_resources (providerName : string) (d : route53Provider)
  (log : list request) : Resources :=
  flat_map (fun r =>
              match r with
              | ReqRecords i =>
                  match ListResourceRecordSets (route53 d) i with
                  | inr sets =>
                      flat_map (record_item providerName d [])
                        (ResourceRecordSets sets)
                  | inl _ => []
                  end
              | ReqZones _ => []
              end) log.

(** A record request of zone [zone] that continues a listing: it carries a
    non-empty start record name. *)
Definition continues_listing (zone : string) (r : request) : Prop :=
  exists i n, r = ReqRecords i /\ HostedZoneId i = zone
              /\ StartRecordName i = Some n /\ n <> "".

(** The zone ids of the zone pages answered to the zone requests of a log. *)
Definition listed_zone_ids (d : route53Provider) (log : list request)
  : list string :=
  flat_map (fun r =>
              match r with
              | ReqZones i =>
                  match ListHostedZones (route53 d) i with
                  | inr out => map Id (HostedZones out)
                  | inl _ => []
                  end
              | ReqRecords _ => []
              end) log.

(** ** The command-line runner ([internal/runner]) *)

Module Runner.

(** [runner.Options] *)
Record Options : Type := mkOptions {
  JSON : bool;
  Silent : bool;
  Version : bool;
  Verbose : bool;
  Hosts : bool;
  IPAddress : bool;
  Config : string;
  Output : string;
  Provider : string
}.

(** The operating-system calls the runner makes, in order, and the
    warnings it logs. *)
Inductive op : Type :=
| OpMkdirAll (dir : string)
| OpStat (path : string)
| OpWriteFile (path content : string)
| OpWarn (path : string) (err : error)
| OpOpen (path : string)
| OpDecode
| OpClose.

Section RunnerDefs.

(** [gologger.Level] and its constants [Verbose] and [Silent] come from the
    logging package. *)
Variable Level : Type.
Variables LevelVerbose LevelSilent : Level.

(** [configureOutput], on the value of the global [gologger.MaxLevel]. *)
Definition configureOutput (options : Options) (MaxLevel : Level) : Level :=
  let MaxLevel := if Verbose options then LevelVerbose else MaxLevel in
  if Silent options then LevelSilent else MaxLevel.

(** The results of the [os] calls, and [defaultConfigLocation] /
    [defaultConfigFile] (the former depends on the user's home directory),
    [path.Dir], [os.IsNotExist] and [err == io.EOF]. *)
Variable defaultConfigLocation defaultConfigFile : string.
Variable path_Dir : string -> string.
Variable os_Stat : string -> option error.
Variable os_IsNotExist : error -> bool.
Variable ioutil_WriteFile : string -> string -> option error.

(** [checkAndCreateConfigFile]: the calls it makes ([os.MkdirAll]'s result
    is ignored by the code). *)
Definition checkAndCreateConfigFile (options : Options) : list op :=
  if String.eqb (Config options) defaultConfigLocation then
    [OpMkdirAll (path_Dir (Config options)); OpStat defaultConfigLocation]
    ++ match os_Stat defaultConfigLocation with
       | Some err =>
           if os_IsNotExist err then
             OpWriteFile defaultConfigLocation defaultConfigFile
             :: match ioutil_WriteFile defaultConfigLocation defaultConfigFile with
                | Some writeErr => [OpWarn defaultConfigLocation writeErr]
                | None => []
                end
           else []
       | None => []
       end
  else [].

Variable File schemaOptions : Type.
Variable os_Open : string -> error + File.
Variable Decode : File -> error + schemaOptions.
Variable is_EOF : error -> bool.

(** [readConfig]: the configuration or an error, and the calls made; the
    deferred [file.Close()] runs on every return after a successful open. *)
Definition readConfig (configFile : string)
  : (error + schemaOptions) * list op :=
  match os_Open configFile with
  | inl err => (inl err, [OpOpen configFile])
  | inr file =>
      let result :=
        match Decode file with
        | inl err =>
            if is_EOF err
            then inl (ErrMsg "invalid configuration file provided")
            else inl err
        | inr config => inr config
        end in
      (result, [OpOpen configFile; OpDecode; OpClose])
  end.

End RunnerDefs.

End Runner.

(** * Properties *)

(** ** Inventory construction and provider resolution *)

Section InventoryProofs.

Variable schemaProvider : Type.
Variable OptionBlock : Type.
Variable GetMetadata : OptionBlock -> string -> option string.
Variables aws_New digitalocean_New gcp_New scaleway_New :
  OptionBlock -> error + schemaProvider.

Let resolve := nameToProvider schemaProvider OptionBlock
  aws_New digitalocean_New gcp_New scaleway_New.

Lemma New_loop_spec (options : list OptionBlock) :
  forall inventory log,
    New_loop schemaProvider OptionBlock GetMetadata
      aws_New digitalocean_New gcp_New scaleway_New options inventory log
    = (mkInventory (Providers inventory
                    ++ flat_map (block_provider schemaProvider OptionBlock
                         GetMetadata aws_New digitalocean_New gcp_New
                         scaleway_New) options),
       log ++ flat_map (block_failure schemaProvider OptionBlock GetMetadata
                         aws_New digitalocean_New gcp_New scaleway_New)
                options).
Proof.
  induction options as [| block rest IH]; intros inventory log; simpl.
  - destruct inventory; rewrite !app_nil_r; reflexivity.
  - unfold block_provider, block_failure.
    destruct (GetMetadata block "provider") as [value |]; simpl.
    + destruct (nameToProvider _ _ _ _ _ _ value block) as [err | p];
        rewrite IH; simpl; rewrite <- !app_assoc; reflexivity.
    + apply IH.
Qed.

(** C3: [New] never fails; its providers are exactly, in block order, the
    providers of the blocks that carry a [provider] key and resolve; a block
    without the key contributes nothing and logs nothing; a block that does
    not resolve contributes one logged warning and no provider. Each block
    contributes independently of the others, so a failing block never
    prevents the resolution of a later one. *)
Theorem New_resolves_each_block (options : list OptionBlock) :
  New schemaProvider OptionBlock GetMetadata
    aws_New digitalocean_New gcp_New scaleway_New options
  = (inr (mkInventory
            (flat_map (block_provider schemaProvider OptionBlock GetMetadata
                         aws_New digitalocean_New gcp_New scaleway_New)
               options)),
     flat_map (block_failure schemaProvider OptionBlock GetMetadata
                 aws_New digitalocean_New gcp_New scaleway_New) options).
Proof.
  unfold New. rewrite New_loop_spec. reflexivity.
Qed.

(** C7: [nameToProvider] returns the constructor result of the variant named
    by ["aws"], ["do"], ["gcp"] or ["scw"]; any other name yields no provider
    and the error ["invalid provider name found: " ++ value], whose message
    names the unrecognised value. *)
Theorem nameToProvider_spec (value : string) (block : OptionBlock) :
  (value = "aws" -> resolve value block = aws_New block)
  /\ (value = "do" -> resolve value block = digitalocean_New block)
  /\ (value = "gcp" -> resolve value block = gcp_New block)
  /\ (value = "scw" -> resolve value block = scaleway_New block)
  /\ (~ In value ["aws"; "do"; "gcp"; "scw"] ->
      resolve value block = inl (ErrMsg ("invalid provider name found: " ++ value))
      /\ exists pre, error_string (ErrMsg ("invalid provider name found: " ++ value))
                     = (pre ++ value)%string).
Proof.
  unfold resolve, nameToProvider.
  split; [intros ->; reflexivity |].
  split; [intros ->; reflexivity |].
  split; [intros ->; reflexivity |].
  split; [intros ->; reflexivity |].
  intros Hnot. split.
  - destruct (String.eqb_spec value "aws"); [subst; simpl in Hnot; tauto |].
    destruct (String.eqb_spec value "do"); [subst; simpl in Hnot; tauto |].
    destruct (String.eqb_spec value "gcp"); [subst; simpl in Hnot; tauto |].
    destruct (String.eqb_spec value "scw"); [subst; simpl in Hnot; tauto |].
    reflexivity.
  - exists "invalid provider name found: ". reflexivity.
Qed.

End InventoryProofs.

(** ** Merging collections *)

(** C9: [Merge a b] has [length a + length b] elements, [a]'s elements then
    [b]'s, each in its own order, and [Merge] is associative. *)
Theorem Merge_concat_assoc (a b c : Resources) :
  length (Merge a b) = length a + length b
  /\ (forall i, i < length a -> nth_error (Merge a b) i = nth_error a i)
  /\ (forall i, nth_error (Merge a b) (length a + i) = nth_error b i)
  /\ Merge (Merge a b) c = Merge a (Merge b c).
Proof.
  unfold Merge. repeat split.
  - apply length_app.
  - intros i Hi. apply nth_error_app1. exact Hi.
  - intros i. rewrite nth_error_app2 by lia. f_equal. lia.
  - symmetry. apply app_assoc.
Qed.

(** ** Strings: [strings.HasSuffix] and [strings.TrimSuffix] *)

Module GoStrings.

Lemma length_app (s t : string) :
  String.length (s ++ t) = String.length s + String.length t.
Proof. induction s as [| a s IH]; simpl; congruence. Qed.

Lemma append_assoc (s t u : string) : ((s ++ t) ++ u = s ++ (t ++ u))%string.
Proof. induction s as [| a s IH]; simpl; congruence. Qed.

Lemma substring_0_all (t : string) : substring 0 (String.length t) t = t.
Proof. induction t as [| a t IH]; simpl; congruence. Qed.

Lemma substring_prefix (s t : string) :
  substring 0 (String.length s) (s ++ t) = s.
Proof.
  induction s as [| a s IH]; simpl; [destruct t; reflexivity | congruence].
Qed.

Lemma substring_after (s t : string) (m : nat) :
  substring (String.length s) m (s ++ t) = substring 0 m t.
Proof. induction s as [| a s IH]; simpl; auto. Qed.

Lemma substring_split (s : string) (k : nat) :
  k <= String.length s ->
  s = (substring 0 k s ++ substring k (String.length s - k) s)%string.
Proof.
  revert k. induction s as [| a s IH]; intros k Hk; simpl in *.
  - destruct k; reflexivity.
  - destruct k as [| k]; simpl.
    + f_equal. symmetry. apply substring_0_all.
    + f_equal. apply IH. lia.
Qed.

Lemma HasSuffix_true (s suffix : string) :
  HasSuffix s suffix = true -> exists t, s = (t ++ suffix)%string.
Proof.
  unfold HasSuffix. intros H.
  apply andb_prop in H as [Hle Heq].
  apply Nat.leb_le in Hle. apply String.eqb_eq in Heq.
  exists (substring 0 (String.length s - String.length suffix) s).
  pose proof (substring_split s (String.length s - String.length suffix))
    as Hs.
  replace (String.length s - (String.length s - String.length suffix))
    with (String.length suffix) in Hs by lia.
  rewrite Heq in Hs. apply Hs. lia.
Qed.

Lemma TrimSuffix_app (t suffix : string) :
  TrimSuffix (t ++ suffix) suffix = t.
Proof.
  unfold TrimSuffix, HasSuffix.
  rewrite length_app.
  replace (String.length t + String.length suffix - String.length suffix)
    with (String.length t) by lia.
  rewrite substring_after, substring_0_all, String.eqb_refl.
  replace (Nat.leb (String.length suffix)
             (String.length t + String.length suffix)) with true
    by (symmetry; apply Nat.leb_le; lia).
  simpl. apply substring_prefix.
Qed.

Lemma TrimSuffix_no_suffix (s suffix : string) :
  ~ (exists t, s = (t ++ suffix)%string) -> TrimSuffix s suffix = s.
Proof.
  intros Hno. unfold TrimSuffix.
  destruct (HasSuffix s suffix) eqn:E; [| reflexivity].
  exfalso. apply Hno. apply HasSuffix_true. exact E.
Qed.

End GoStrings.

(** ** Normalisation of one page of records *)

Section Normalisation.

Variable providerName : string.

Lemma record_item_acc (d : route53Provider) (acc : Resources)
  (item : ResourceRecordSet) :
  record_item providerName d acc item = acc ++ record_item providerName d [] item.
Proof.
  unfold record_item, Append.
  destruct (negb (String.eqb (Type_ item) "A")); [rewrite app_nil_r |]; reflexivity.
Qed.

Lemma record_items_acc (d : route53Provider) (items : list ResourceRecordSet) :
  forall acc,
    record_items providerName d acc items
    = acc ++ flat_map (record_item providerName d []) items.
Proof.
  unfold record_items.
  induction items as [| item rest IH]; intros acc; simpl.
  - symmetry. apply app_nil_r.
  - rewrite IH, record_item_acc, app_assoc. reflexivity.
Qed.

(** C4: normalising a page appends, in order, one contribution per raw
    record; a record whose type is not exactly ["A"] (["AAAA"] included)
    contributes nothing and no error, and a record of type ["A"] contributes
    exactly one resource. *)
Theorem record_items_keep_only_A (d : route53Provider) (acc : Resources)
  (items : list ResourceRecordSet) :
  record_items providerName d acc items
  = acc ++ flat_map (record_item providerName d []) items
  /\ (forall item, Type_ item <> "A" -> record_item providerName d [] item = [])
  /\ (forall item, Type_ item = "A" ->
        exists r, record_item providerName d [] item = [r]).
Proof.
  split; [apply record_items_acc |]. split.
  - intros item Hty. unfold record_item.
    destruct (String.eqb_spec (Type_ item) "A"); [contradiction | reflexivity].
  - intros item Hty. unfold record_item. rewrite Hty. simpl.
    eexists. reflexivity.
Qed.

(** C5: the resource made from an ["A"] record has as [DNSName] the raw
    name with one trailing ["."] removed when it ends in ["."], and the raw
    name unchanged otherwise; when the raw name does not end in [".."], the
    [DNSName] does not end in ["."]. *)
Theorem record_item_DNSName (d : route53Provider) (item : ResourceRecordSet) :
  Type_ item = "A" ->
  exists r, record_item providerName d [] item = [r]
    /\ (forall t, Name item = (t ++ ".")%string -> DNSName r = t)
    /\ (~ (exists t, Name item = (t ++ ".")%string) -> DNSName r = Name item)
    /\ (~ (exists u, Name item = (u ++ "..")%string) ->
        ~ (exists t, DNSName r = (t ++ ".")%string)).
Proof.
  intros Hty. unfold record_item. rewrite Hty. simpl.
  eexists. split; [reflexivity |]. simpl.
  split; [| split].
  - intros t Ht. rewrite Ht. apply GoStrings.TrimSuffix_app.
  - apply GoStrings.TrimSuffix_no_suffix.
  - intros Hnodots [t Ht].
    destruct (HasSuffix (Name item) ".") eqn:E.
    + apply GoStrings.HasSuffix_true in E as [u Hu].
      rewrite Hu, GoStrings.TrimSuffix_app in Ht. subst u.
      apply Hnodots. exists t. rewrite Hu, GoStrings.append_assoc. reflexivity.
    + unfold TrimSuffix in Ht. rewrite E in Ht.
      exfalso.
      unfold HasSuffix in E. rewrite Ht, GoStrings.length_app in E.
      replace (String.length t + String.length "." - String.length ".")
        with (String.length t) in E by (simpl; lia).
      rewrite GoStrings.substring_after in E.
      assert (Hle : Nat.leb (String.length ".")
                      (String.length t + String.length ".") = true)
        by (apply Nat.leb_le; simpl; lia).
      rewrite Hle in E. simpl in E. discriminate.
Qed.

(** C6: the resource made from an ["A"] record is appended to the output;
    its [PublicIPv4] is the first associated value when there is one, and
    [""] (no error, the resource still produced) when there is none. *)
Theorem record_item_PublicIPv4 (d : route53Provider) (acc : Resources)
  (item : ResourceRecordSet) :
  Type_ item = "A" ->
  exists r, record_items providerName d acc [item] = acc ++ [r]
    /\ (forall r0 rest, ResourceRecords item = r0 :: rest ->
          PublicIPv4 r = StringValue (Value r0))
    /\ (forall v rest, ResourceRecords item = mkResourceRecord (Some v) :: rest ->
          PublicIPv4 r = v)
    /\ (ResourceRecords item = [] -> PublicIPv4 r = "").
Proof.
  intros Hty. unfold record_items, record_item, Append. simpl. rewrite Hty.
  simpl. eexists. split; [reflexivity |]. simpl.
  split; [| split].
  - intros r0 rest ->. reflexivity.
  - intros v rest ->. reflexivity.
  - intros ->. reflexivity.
Qed.

End Normalisation.

Module Effects.

Lemma app_cons_split {X} (l1 l2 pre post : list X) (r : X) :
  l1 ++ l2 = pre ++ r :: post ->
  (exists post1, l1 = pre ++ r :: post1)
  \/ (exists pre2, l2 = pre2 ++ r :: post).
Proof.
  intros H. apply app_eq_app in H as [l [[H1 H2] | [H1 H2]]].
  - destruct l as [| x l].
    + right. exists []. simpl in H2. rewrite <- H2. reflexivity.
    + left. simpl in H2. injection H2 as -> _. exists l. exact H1.
  - right. exists l. exact H2.
Qed.

Lemma surfaces_ret {A} c w (a : A) : surfaces c w (ret a).
Proof.
  intros pre r post e0 H. simpl in H. destruct pre; discriminate.
Qed.

Lemma surfaces_out_of_fuel {A} c w : surfaces (A := A) c w out_of_fuel.
Proof.
  intros pre r post e0 H. simpl in H. destruct pre; discriminate.
Qed.

Lemma surfaces_bind {A B} c w (m : M A) (f : A -> M B) :
  surfaces c w m -> (forall a, surfaces c w (f a)) -> surfaces c w (bind m f).
Proof.
  intros Hm Hf. destruct m as [[a | e |] l1]; simpl.
  2, 3: intros pre r post e0 Hl He;
        destruct (Hm pre r post e0 Hl He) as [Hp Hd]; simpl in Hd;
        first [ discriminate
              | split; [exact Hp | injection Hd as ->; reflexivity] ].
  destruct (f a) as [o l2] eqn:Ef.
  intros pre r post e0 Hl He. simpl in Hl |- *.
  apply app_cons_split in Hl as [[post1 H1] | [pre2 H2]].
  - destruct (Hm pre r post1 e0 H1 He) as [_ Hd]. discriminate.
  - specialize (Hf a pre2 r post e0). rewrite Ef in Hf. apply Hf; assumption.
Qed.

Lemma surfaces_wrap {A} c w msg (m : M A) :
  surfaces c w m -> surfaces c (fun r e => ErrWrap msg (w r e)) (wrap msg m).
Proof.
  intros Hm pre r post e0 Hl He.
  destruct m as [[a | e |] l]; simpl in *;
    destruct (Hm pre r post e0 Hl He) as [Hp Hf]; try discriminate.
  split; [exact Hp |]. injection Hf as ->. reflexivity.
Qed.

Lemma surfaces_ext {A} c w w' (m : M A) :
  surfaces c w m -> Forall (fun r => forall e, w r e = w' r e) (snd m) ->
  surfaces c w' m.
Proof.
  intros Hm Hall pre r post e0 Hl He.
  destruct (Hm pre r post e0 Hl He) as [Hp Hf]. split; [exact Hp |].
  rewrite Hf. f_equal. rewrite Hl in Hall.
  apply Forall_app in Hall as [_ Hall]. inversion Hall. auto.
Qed.

Lemma surfaces_call_zones c w req :
  (forall e, w (ReqZones req) e = e) -> surfaces c w (call_zones c req).
Proof.
  intros Hw pre r post e0 Hl He. unfold call_zones in *.
  destruct (ListHostedZones c req) eqn:E; simpl in Hl;
    destruct pre as [| x [| y pre]]; simpl in Hl; try discriminate;
    injection Hl as <- <-; simpl in He; rewrite E in He; try discriminate.
  injection He as ->. rewrite Hw. auto.
Qed.

Lemma surfaces_call_records c w req :
  (forall e, w (ReqRecords req) e = e) -> surfaces c w (call_records c req).
Proof.
  intros Hw pre r post e0 Hl He. unfold call_records in *.
  destruct (ListResourceRecordSets c req) eqn:E; simpl in Hl;
    destruct pre as [| x [| y pre]]; simpl in Hl; try discriminate;
    injection Hl as <- <-; simpl in He; rewrite E in He; try discriminate.
  injection He as ->. rewrite Hw. auto.
Qed.

Lemma Forall_bind {A B} (P : request -> Prop) (m : M A) (f : A -> M B) :
  Forall P (snd m) -> (forall a, Forall P (snd (f a))) ->
  Forall P (snd (bind m f)).
Proof.
  intros Hm Hf. destruct m as [[a | e |] l1]; simpl; try exact Hm.
  specialize (Hf a). destruct (f a) as [o l2]. simpl in *.
  apply Forall_app. auto.
Qed.

Lemma Forall_wrap {A} (P : request -> Prop) msg (m : M A) :
  Forall P (snd m) -> Forall P (snd (wrap msg m)).
Proof. destruct m as [[a | e |] l]; simpl; auto. Qed.

Lemma yields_bind {A B} (Q : A -> Prop) (R : B -> Prop) (m : M A)
  (f : A -> M B) :
  yields Q m -> (forall a, Q a -> yields R (f a)) -> yields R (bind m f).
Proof.
  intros Hm Hf b. destruct m as [[a | e |] l1]; simpl; try discriminate.
  specialize (Hf a (Hm a eq_refl) b). destruct (f a) as [o l2]. exact Hf.
Qed.

Lemma yields_wrap {A} (Q : A -> Prop) msg (m : M A) :
  yields Q m -> yields Q (wrap msg m).
Proof.
  intros Hm a. destruct m as [[x | e |] l]; simpl; try discriminate. apply Hm.
Qed.

Lemma yields_any {A} (Q : A -> Prop) (m : M A) :
  (forall a, Q a) -> yields Q m.
Proof. intros H a _. apply H. Qed.

End Effects.

(** ** The pagination loops *)

Section Loops.

Variable providerName : string.

Lemma records_loop_requests fuel d req acc :
  Forall (fun r => exists i, r = ReqRecords i)
    (snd (records_loop providerName fuel d req acc)).
Proof.
  revert req acc. induction fuel as [| fuel IH]; intros req acc; simpl.
  - constructor.
  - apply Effects.Forall_bind.
    + apply Effects.Forall_wrap. unfold call_records.
      destruct (ListResourceRecordSets (route53 d) req);
        repeat constructor; eauto.
    + intros sets.
      destruct (sets_IsTruncated sets && negb (String.eqb (NextRecordName sets) ""));
        [apply IH | constructor].
Qed.

Lemma records_loop_surfaces fuel d req acc :
  surfaces (route53 d)
    (fun _ e => ErrWrap "could not list resource_record set" e)
    (records_loop providerName fuel d req acc).
Proof.
  revert req acc. induction fuel as [| fuel IH]; intros req acc; simpl.
  - apply Effects.surfaces_out_of_fuel.
  - apply Effects.surfaces_bind.
    + exact (Effects.surfaces_wrap _ (fun _ e => e) _ _
               (Effects.surfaces_call_records _ _ _ (fun e => eq_refl))).
    + intros sets.
      destruct (sets_IsTruncated sets && negb (String.eqb (NextRecordName sets) ""));
        [apply IH | apply Effects.surfaces_ret].
Qed.

Lemma zones_items_surfaces fuel d zones acc :
  surfaces (route53 d) ctx_wrap (zones_items providerName fuel d zones acc).
Proof.
  revert acc. induction zones as [| zone rest IH]; intros acc; simpl.
  - apply Effects.surfaces_ret.
  - apply Effects.surfaces_bind; [| intros; apply IH].
    eapply Effects.surfaces_ext.
    + exact (Effects.surfaces_wrap _ _ "could not list hosted zones records" _
               (records_loop_surfaces fuel d _ [])).
    + apply Effects.Forall_wrap.
      eapply Forall_impl; [| apply records_loop_requests].
      intros r [i ->] e. reflexivity.
Qed.

Lemma zones_loop_surfaces fuel d req acc :
  surfaces (route53 d) ctx_wrap (zones_loop providerName fuel d req acc).
Proof.
  revert req acc. induction fuel as [| fuel IH]; intros req acc; simpl.
  - apply Effects.surfaces_out_of_fuel.
  - apply Effects.surfaces_bind.
    + eapply Effects.surfaces_ext.
      * exact (Effects.surfaces_wrap _ (fun _ e => e) "could not list hosted zones"
                 _ (Effects.surfaces_call_zones _ _ _ (fun e => eq_refl))).
      * apply Effects.Forall_wrap. unfold call_zones.
        destruct (ListHostedZones (route53 d) req);
          repeat constructor.
    + intros zoneOutput. apply Effects.surfaces_bind.
      * apply zones_items_surfaces.
      * intros acc'.
        destruct (zones_IsTruncated zoneOutput
                  && negb (String.eqb (NextMarker zoneOutput) ""));
          [apply IH | apply Effects.surfaces_ret].
Qed.

(** C8 (as amended): when a request sent by [GetResource] fails, it is the
    last request sent (no retry, nothing after it) and [GetResource] returns
    that error and no collection, wrapped with "could not list hosted zones"
    for a zone-listing request, or with "could not list resource_record set"
    then "could not list hosted zones records" for a record-listing request;
    the zone is not part of the message. *)
Theorem GetResource_fetch_error_surfaced fuel d pre r post e0 :
  snd (GetResource providerName fuel d) = pre ++ r :: post ->
  req_error (route53 d) r = Some e0 ->
  post = []
  /\ fst (GetResource providerName fuel d)
     = Fail (match r with
             | ReqZones _ => ErrWrap "could not list hosted zones" e0
             | ReqRecords _ =>
                 ErrWrap "could not list hosted zones records"
                   (ErrWrap "could not list resource_record set" e0)
             end).
Proof.
  intros Hl He.
  exact (zones_loop_surfaces fuel d _ [] pre r post e0 Hl He).
Qed.

Lemma record_items_public d acc items :
  Forall public_no_private acc ->
  Forall public_no_private (record_items providerName d acc items).
Proof.
  unfold record_items. revert acc.
  induction items as [| item rest IH]; intros acc Hacc; simpl; [exact Hacc |].
  apply IH. unfold record_item, Append.
  destruct (negb (String.eqb (Type_ item) "A")); [exact Hacc |].
  apply Forall_app. split; [exact Hacc |].
  repeat constructor.
Qed.

Lemma records_loop_public fuel d req acc :
  Forall public_no_private acc ->
  yields (Forall public_no_private) (records_loop providerName fuel d req acc).
Proof.
  revert req acc. induction fuel as [| fuel IH]; intros req acc Hacc; simpl.
  - intros a H. discriminate.
  - apply Effects.yields_bind with (Q := fun _ => True).
    + apply Effects.yields_any. auto.
    + intros sets _.
      destruct (sets_IsTruncated sets && negb (String.eqb (NextRecordName sets) "")).
      * apply IH. apply record_items_public. exact Hacc.
      * intros a H. injection H as <-. apply record_items_public. exact Hacc.
Qed.

Lemma zones_items_public fuel d zones acc :
  Forall public_no_private acc ->
  yields (Forall public_no_private) (zones_items providerName fuel d zones acc).
Proof.
  revert acc. induction zones as [| zone rest IH]; intros acc Hacc; simpl.
  - intros a H. injection H as <-. exact Hacc.
  - apply Effects.yields_bind with (Q := Forall public_no_private).
    + apply Effects.yields_wrap. apply records_loop_public. constructor.
    + intros items Hitems. apply IH. unfold Merge.
      apply Forall_app. auto.
Qed.

Lemma zones_loop_public fuel d req acc :
  Forall public_no_private acc ->
  yields (Forall public_no_private) (zones_loop providerName fuel d req acc).
Proof.
  revert req acc. induction fuel as [| fuel IH]; intros req acc Hacc; simpl.
  - intros a H. discriminate.
  - apply Effects.yields_bind with (Q := fun _ => True).
    + apply Effects.yields_any. auto.
    + intros zoneOutput _.
      apply Effects.yields_bind with (Q := Forall public_no_private).
      * apply zones_items_public. exact Hacc.
      * intros acc' Hacc'.
        destruct (zones_IsTruncated zoneOutput
                  && negb (String.eqb (NextMarker zoneOutput) "")).
        -- apply IH. exact Hacc'.
        -- intros a H. injection H as <-. exact Hacc'.
Qed.

(** C10: every resource returned by [GetResource] has [Public = true] and
    [PrivateIPv4 = ""], whatever the address of the ["A"] record (a private
    address included). *)
Theorem GetResource_all_public fuel d rs :
  fst (GetResource providerName fuel d) = Done rs ->
  Forall (fun r => Public r = true /\ PrivateIPv4 r = "") rs.
Proof.
  intros H. apply (zones_loop_public fuel d _ [] (Forall_nil _) rs H).
Qed.

End Loops.


(** ** Cursor advance and termination of the pagination loops *)

Section Pagination.

Variable providerName : string.

(** C2: one iteration of the record-listing loop sends the current request,
    appends the page's resources, and then continues with the request whose
    start name is the response's [NextRecordName] if and only if the
    response is truncated with a non-empty [NextRecordName]; otherwise it
    returns the accumulated collection. On three pages (truncated, truncated,
    not truncated) of 2, 2 and 1 ["A"] records, [listResourceRecords] sends
    exactly three requests and returns the five resources in page order. *)
Theorem records_loop_continue_iff :
  (forall fuel d req acc sets,
      ListResourceRecordSets (route53 d) req = inr sets ->
      let acc' := record_items providerName d acc (ResourceRecordSets sets) in
      records_loop providerName (S fuel) d req acc
      = if sets_IsTruncated sets && negb (String.eqb (NextRecordName sets) "")
        then let (o, l) :=
               records_loop providerName fuel d
                 (SetStartRecordName req (NextRecordName sets)) acc' in
             (o, ReqRecords req :: l)
        else (Done acc', [ReqRecords req]))
  /\ (forall fuel, 3 <= fuel ->
      listResourceRecords providerName fuel Backends.three_pages_provider "Z1"
      = (Done (Backends.expected_three_pages providerName),
         [ReqRecords (mkListResourceRecordSetsInput "Z1" None);
          ReqRecords (mkListResourceRecordSetsInput "Z1" (Some "c.example.com."));
          ReqRecords (mkListResourceRecordSetsInput "Z1" (Some "e.example.com."))])).
Proof.
  split.
  - intros fuel d req acc sets Hsets acc'. simpl.
    unfold call_records. rewrite Hsets. simpl.
    destruct (sets_IsTruncated sets && negb (String.eqb (NextRecordName sets) ""));
      [| reflexivity].
    destruct (records_loop providerName fuel d _ _). reflexivity.
  - intros fuel Hfuel.
    destruct fuel as [| [| [| fuel]]]; [lia | lia | lia |].
    reflexivity.
Qed.

Lemma stale_marker_loop f acc :
  fst (zones_loop providerName f Backends.two_zone_pages_provider
         (mkListHostedZonesInput (Some "")) acc) = Diverge
  /\ ~ In (ReqZones (mkListHostedZonesInput (Some "zones-page-2")))
       (snd (zones_loop providerName f Backends.two_zone_pages_provider
               (mkListHostedZonesInput (Some "")) acc)).
Proof.
  revert acc. induction f as [| f IH]; intros acc.
  - simpl. auto.
  - simpl. unfold SetMarker. specialize (IH (Merge acc [])).
    destruct (zones_loop providerName f _ _ _) as [o l]. simpl in *.
    destruct IH as [Ho Hn]. split; [exact Ho |].
    intros [H | [H | H]]; [discriminate | discriminate | contradiction].
Qed.

(** C1 (refuted for the zone loop): the zone-listing loop of [GetResource]
    advances with the response's [Marker] (the marker of the request that
    produced it) instead of the [NextMarker] it has just tested. On a backend
    whose first zone page is truncated with [NextMarker = "zones-page-2"]
    and echoes the empty marker, the second zone request carries the marker
    [""]; the request for ["zones-page-2"] is never sent, zone [Z2] is never
    listed, and the fetch does not return for any iteration budget. *)
Theorem GetResource_stale_zone_marker :
  NextMarker Backends.zones_page1 = "zones-page-2"
  /\ firstn 3 (snd (GetResource providerName 2 Backends.two_zone_pages_provider))
     = [ReqZones (mkListHostedZonesInput None);
        ReqRecords (mkListResourceRecordSetsInput "Z1" None);
        ReqZones (mkListHostedZonesInput (Some ""))]
  /\ (forall fuel,
        fst (GetResource providerName fuel Backends.two_zone_pages_provider)
        = Diverge
        /\ ~ In (ReqZones (mkListHostedZonesInput (Some "zones-page-2")))
             (snd (GetResource providerName fuel
                     Backends.two_zone_pages_provider))).
Proof.
  split; [reflexivity |]. split; [reflexivity |].
  intros [| fuel]; [simpl; auto |].
  unfold GetResource. simpl. unfold SetMarker.
  destruct (stale_marker_loop fuel (Merge [] [])) as [Ho Hn].
  destruct (zones_loop providerName fuel _ _ _) as [o l]. simpl in *.
  split; [exact Ho |].
  intros [H | [H | H]]; [discriminate | discriminate | contradiction].
Qed.

End Pagination.

(** ** The error of a failed record listing does not name the zone *)

(** C8 (counterexample): with zones [Z1] and [Z2], a failure of the record
    listing of [Z1] and a failure of the record listing of [Z2] make
    [GetResource] return the very same error; the operation context names
    record listing but no zone. *)
Lemma GetResource_error_same_for_any_zone :
  fst (GetResource "aws" 2 (Backends.failing_zone_provider "Z1"))
  = Fail (ErrWrap "could not list hosted zones records"
            (ErrWrap "could not list resource_record set"
               (ErrMsg "Throttling")))
  /\ fst (GetResource "aws" 2 (Backends.failing_zone_provider "Z2"))
     = fst (GetResource "aws" 2 (Backends.failing_zone_provider "Z1"))
  /\ snd (GetResource "aws" 2 (Backends.failing_zone_provider "Z1"))
     = [ReqZones (mkListHostedZonesInput None);
        ReqRecords (mkListResourceRecordSetsInput "Z1" None)]
  /\ snd (GetResource "aws" 2 (Backends.failing_zone_provider "Z2"))
     = [ReqZones (mkListHostedZonesInput None);
        ReqRecords (mkListResourceRecordSetsInput "Z1" None);
        ReqRecords (mkListResourceRecordSetsInput "Z2" None)].
Proof. repeat split; reflexivity. Qed.

(** ** Instances of the theorems on concrete inputs *)

Lemma records_loop_continue_iff_witness :
  (ListResourceRecordSets (route53 Backends.three_pages_provider)
     (mkListResourceRecordSetsInput "Z1" None) = inr Backends.page1
   /\ records_loop "aws" 1 Backends.three_pages_provider
        (mkListResourceRecordSetsInput "Z1" None) []
      = (Diverge, [ReqRecords (mkListResourceRecordSetsInput "Z1" None)]))
  /\ (3 <= 3
      /\ listResourceRecords "aws" 3 Backends.three_pages_provider "Z1"
         = (Done (Backends.expected_three_pages "aws"),
            [ReqRecords (mkListResourceRecordSetsInput "Z1" None);
             ReqRecords (mkListResourceRecordSetsInput "Z1" (Some "c.example.com."));
             ReqRecords (mkListResourceRecordSetsInput "Z1" (Some "e.example.com."))])).
Proof.
  split.
  - split; [reflexivity |].
    rewrite (proj1 (records_loop_continue_iff "aws") 0
               Backends.three_pages_provider
               (mkListResourceRecordSetsInput "Z1" None) [] Backends.page1
               eq_refl).
    reflexivity.
  - split; [lia |]. apply (proj2 (records_loop_continue_iff "aws")). lia.
Defined.

Lemma record_items_keep_only_A_witness :
  Type_ (mkResourceRecordSet "www.example.com." "AAAA"
           [mkResourceRecord (Some "2001:db8::1")]) <> "A"
  /\ record_item "aws" Backends.three_pages_provider []
       (mkResourceRecordSet "www.example.com." "AAAA"
          [mkResourceRecord (Some "2001:db8::1")]) = []
  /\ Type_ (Backends.rrA "www.example.com." "192.0.2.1") = "A"
  /\ exists r, record_item "aws" Backends.three_pages_provider []
                 (Backends.rrA "www.example.com." "192.0.2.1") = [r].
Proof.
  destruct (record_items_keep_only_A "aws" Backends.three_pages_provider []
              []) as [_ [Hdrop Hkeep]].
  split; [discriminate |]. split; [apply Hdrop; discriminate |].
  split; [reflexivity |]. apply Hkeep. reflexivity.
Defined.

Lemma record_item_DNSName_witness :
  Type_ (Backends.rrA "www.example.com." "192.0.2.1") = "A"
  /\ exists r,
       record_item "aws" Backends.three_pages_provider []
         (Backends.rrA "www.example.com." "192.0.2.1") = [r]
       /\ (forall t, Name (Backends.rrA "www.example.com." "192.0.2.1")
                     = (t ++ ".")%string -> DNSName r = t)
       /\ (~ (exists t, Name (Backends.rrA "www.example.com." "192.0.2.1")
                        = (t ++ ".")%string) ->
           DNSName r = Name (Backends.rrA "www.example.com." "192.0.2.1"))
       /\ (~ (exists u, Name (Backends.rrA "www.example.com." "192.0.2.1")
                        = (u ++ "..")%string) ->
           ~ (exists t, DNSName r = (t ++ ".")%string)).
Proof.
  split; [reflexivity |]. apply record_item_DNSName. reflexivity.
Defined.

Lemma record_item_PublicIPv4_witness :
  Type_ (mkResourceRecordSet "empty.example.com." "A" []) = "A"
  /\ exists r,
       record_items "aws" Backends.three_pages_provider []
         [mkResourceRecordSet "empty.example.com." "A" []] = [] ++ [r]
       /\ (forall r0 rest,
             ResourceRecords (mkResourceRecordSet "empty.example.com." "A" [])
             = r0 :: rest -> PublicIPv4 r = StringValue (Value r0))
       /\ (forall v rest,
             ResourceRecords (mkResourceRecordSet "empty.example.com." "A" [])
             = mkResourceRecord (Some v) :: rest -> PublicIPv4 r = v)
       /\ (ResourceRecords (mkResourceRecordSet "empty.example.com." "A" [])
           = [] -> PublicIPv4 r = "").
Proof.
  split; [reflexivity |]. apply record_item_PublicIPv4. reflexivity.
Defined.

Lemma nameToProvider_spec_witness :
  ~ In "azure" ["aws"; "do"; "gcp"; "scw"]
  /\ nameToProvider string unit (fun _ => inr "aws") (fun _ => inr "do")
       (fun _ => inr "gcp") (fun _ => inr "scw") "azure" tt
     = inl (ErrMsg "invalid provider name found: azure")
  /\ nameToProvider string unit (fun _ => inr "aws") (fun _ => inr "do")
       (fun _ => inr "gcp") (fun _ => inr "scw") "gcp" tt = inr "gcp".
Proof.
  destruct (nameToProvider_spec string unit (fun _ _ => None) (fun _ => inr "aws")
              (fun _ => inr "do") (fun _ => inr "gcp") (fun _ => inr "scw")
              "azure" tt) as [_ [_ [_ [_ Hbad]]]].
  destruct (nameToProvider_spec string unit (fun _ _ => None) (fun _ => inr "aws")
              (fun _ => inr "do") (fun _ => inr "gcp") (fun _ => inr "scw")
              "gcp" tt) as [_ [_ [Hgcp _]]].
  assert (Hn : ~ In "azure" ["aws"; "do"; "gcp"; "scw"]).
  { simpl. intros [H | [H | [H | [H | []]]]]; discriminate. }
  split; [exact Hn |]. split; [apply (Hbad Hn) | apply Hgcp; reflexivity].
Defined.

Lemma GetResource_fetch_error_surfaced_witness :
  snd (GetResource "aws" 2 (Backends.failing_zone_provider "Z2"))
  = [ReqZones (mkListHostedZonesInput None);
     ReqRecords (mkListResourceRecordSetsInput "Z1" None)]
    ++ [ReqRecords (mkListResourceRecordSetsInput "Z2" None)]
  /\ req_error (route53 (Backends.failing_zone_provider "Z2"))
       (ReqRecords (mkListResourceRecordSetsInput "Z2" None))
     = Some (ErrMsg "Throttling")
  /\ ([] : list request) = []
  /\ fst (GetResource "aws" 2 (Backends.failing_zone_provider "Z2"))
     = Fail (ErrWrap "could not list hosted zones records"
               (ErrWrap "could not list resource_record set"
                  (ErrMsg "Throttling"))).
Proof.
  split; [reflexivity |]. split; [reflexivity |].
  apply (GetResource_fetch_error_surfaced "aws" 2
           (Backends.failing_zone_provider "Z2")
           [ReqZones (mkListHostedZonesInput None);
            ReqRecords (mkListResourceRecordSetsInput "Z1" None)]
           (ReqRecords (mkListResourceRecordSetsInput "Z2" None)) []
           (ErrMsg "Throttling")); reflexivity.
Defined.

Lemma GetResource_all_public_witness :
  fst (GetResource "aws" 2 Backends.private_record_provider)
  = Done [mkResource "aws" "prod" "db.internal.example.com" true "10.0.0.5" ""]
  /\ Forall (fun r => Public r = true /\ PrivateIPv4 r = "")
       [mkResource "aws" "prod" "db.internal.example.com" true "10.0.0.5" ""].
Proof.
  split; [reflexivity |]. apply (GetResource_all_public "aws" 2
                                   Backends.private_record_provider).
  reflexivity.
Defined.

(** ** Further properties of the Route53 provider *)

Section MoreRoute53.

Variable providerName : string.

Lemma fetched_resources_app d l1 l2 :
  fetched_resources providerName d (l1 ++ l2)
  = fetched_resources providerName d l1 ++ fetched_resources providerName d l2.
Proof. unfold fetched_resources. apply flat_map_app. Qed.

Lemma records_loop_fetched fuel d req acc rs :
  fst (records_loop providerName fuel d req acc) = Done rs ->
  rs = acc ++ fetched_resources providerName d
                (snd (records_loop providerName fuel d req acc)).
Proof.
  revert req acc rs. induction fuel as [| fuel IH]; intros req acc rs H;
    simpl in *; [discriminate |].
  unfold call_records in *.
  destruct (ListResourceRecordSets (route53 d) req) as [e | sets] eqn:E;
    simpl in *; [discriminate |].
  destruct (sets_IsTruncated sets && negb (String.eqb (NextRecordName sets) "")).
  - destruct (records_loop providerName fuel d _ _) as [o l2] eqn:E2.
    simpl in *. rewrite (IH _ _ rs) by (rewrite E2; exact H).
    rewrite E2. simpl. unfold fetched_resources at 2. simpl. rewrite E.
    rewrite record_items_acc, <- app_assoc. reflexivity.
  - simpl in *. injection H as <-.
    unfold fetched_resources. simpl. rewrite E, record_items_acc.
    rewrite !app_nil_r. reflexivity.
Qed.

Lemma zones_items_fetched fuel d zones acc rs :
  fst (zones_items providerName fuel d zones acc) = Done rs ->
  rs = acc ++ fetched_resources providerName d
                (snd (zones_items providerName fuel d zones acc)).
Proof.
  revert acc rs. induction zones as [| zone rest IH]; intros acc rs H; simpl in *.
  - injection H as <-. rewrite app_nil_r. reflexivity.
  - unfold listResourceRecords in *.
    pose proof (records_loop_fetched fuel d
                  (mkListResourceRecordSetsInput (Id zone) None) []) as Hr.
    destruct (records_loop providerName fuel d _ []) as [[items | e |] l1];
      simpl in *; try discriminate.
    destruct (zones_items providerName fuel d rest (Merge acc items))
      as [o l2] eqn:E2.
    simpl in *. specialize (IH (Merge acc items) rs). rewrite E2 in IH.
    rewrite (IH H), (Hr items eq_refl), fetched_resources_app.
    unfold Merge. simpl. rewrite <- app_assoc. reflexivity.
Qed.

Lemma zones_loop_fetched fuel d req acc rs :
  fst (zones_loop providerName fuel d req acc) = Done rs ->
  rs = acc ++ fetched_resources providerName d
                (snd (zones_loop providerName fuel d req acc)).
Proof.
  revert req acc rs. induction fuel as [| fuel IH]; intros req acc rs H;
    simpl in *; [discriminate |].
  unfold call_zones in *.
  destruct (ListHostedZones (route53 d) req) as [e | out]; simpl in *;
    [discriminate |].
  pose proof (zones_items_fetched (S fuel) d (HostedZones out) acc) as Hz.
  destruct (zones_items providerName (S fuel) d (HostedZones out) acc)
    as [[acc' | e |] l1]; simpl in *; try discriminate.
  destruct (zones_IsTruncated out && negb (String.eqb (NextMarker out) "")).
  - destruct (zones_loop providerName fuel d _ acc') as [o l2] eqn:E2.
    simpl in *. specialize (IH (SetMarker req (zones_Marker out)) acc' rs).
    rewrite E2 in IH. simpl in IH.
    rewrite (IH H), (Hz acc' eq_refl).
    unfold fetched_resources at 2 3. simpl.
    fold (fetched_resources providerName d (l1 ++ l2)).
    fold (fetched_resources providerName d l1).
    rewrite fetched_resources_app, <- app_assoc. reflexivity.
  - simpl in *. injection H as <-. rewrite (Hz acc' eq_refl).
    unfold fetched_resources. simpl. rewrite !app_nil_r. reflexivity.
Qed.

(** The collection [GetResource] returns is exactly, in request order, the
    normalisation of every record page it fetched: nothing is dropped,
    duplicated or reordered across pages and zones. *)
Theorem GetResource_is_fetched_pages fuel d rs :
  fst (GetResource providerName fuel d) = Done rs ->
  rs = fetched_resources providerName d (snd (GetResource providerName fuel d)).
Proof. intros H. exact (zones_loop_fetched fuel d _ [] rs H). Qed.

Lemma Forall_flat_map {X Y} (P : Y -> Prop) (f : X -> list Y) (l : list X) :
  (forall x, Forall P (f x)) -> Forall P (flat_map f l).
Proof.
  intros H. induction l as [| x l IH]; simpl; [constructor |].
  apply Forall_app. auto.
Qed.

(** Every resource [GetResource] returns carries the provider name of the
    package and the profile of the provider instance. *)
Theorem GetResource_provider_profile fuel d rs :
  fst (GetResource providerName fuel d) = Done rs ->
  Forall (fun r => Provider r = providerName /\ Profile r = profile d) rs.
Proof.
  intros H. rewrite (zones_loop_fetched fuel d _ [] rs H). simpl.
  apply Forall_flat_map. intros [i | i]; [constructor |].
  destruct (ListResourceRecordSets (route53 d) i) as [e | sets];
    [constructor |].
  apply Forall_flat_map. intros item. unfold record_item, Append.
  destruct (negb (String.eqb (Type_ item) "A")); repeat constructor.
Qed.

Lemma records_loop_chain fuel d req acc :
  snd (records_loop providerName fuel d req acc) = []
  \/ exists rest,
       snd (records_loop providerName fuel d req acc) = ReqRecords req :: rest
       /\ Forall (continues_listing (HostedZoneId req)) rest.
Proof.
  revert req acc. induction fuel as [| fuel IH]; intros req acc; simpl;
    [left; reflexivity |].
  unfold call_records.
  destruct (ListResourceRecordSets (route53 d) req) as [e | sets]; simpl.
  - right. exists []. split; [reflexivity | constructor].
  - destruct (sets_IsTruncated sets && negb (String.eqb (NextRecordName sets) ""))
      eqn:C.
    + apply andb_prop in C as [_ C]. apply negb_true_iff, String.eqb_neq in C.
      set (req' := SetStartRecordName req (NextRecordName sets)).
      destruct (IH req' (record_items providerName d acc (ResourceRecordSets sets)))
        as [Hnil | [rest [Hl Hrest]]];
        destruct (records_loop providerName fuel d req' _) as [o l2];
        simpl in *; right; exists l2; (split; [reflexivity |]).
      * subst. constructor.
      * subst. constructor; [| exact Hrest].
        exists req', (NextRecordName sets). repeat split; assumption.
    + simpl. right. exists []. split; [reflexivity | constructor].
Qed.

(** [listResourceRecords zone] sends only requests for [zone]: the first
    without a start record name, every later one continuing the listing with
    a non-empty start record name. *)
Theorem listResourceRecords_requests fuel d zone :
  snd (listResourceRecords providerName fuel d zone) = []
  \/ exists rest,
       snd (listResourceRecords providerName fuel d zone)
       = ReqRecords (mkListResourceRecordSetsInput zone None) :: rest
       /\ Forall (continues_listing zone) rest.
Proof. apply records_loop_chain. Qed.

(** A zone whose first record page holds no ["A"] record and is the last
    page yields the empty collection, no error, after one request. *)
Theorem listResourceRecords_no_A_records fuel d zone sets :
  ListResourceRecordSets (route53 d) (mkListResourceRecordSetsInput zone None)
  = inr sets ->
  Forall (fun item => Type_ item <> "A") (ResourceRecordSets sets) ->
  sets_IsTruncated sets = false \/ NextRecordName sets = "" ->
  listResourceRecords providerName (S fuel) d zone
  = (Done [], [ReqRecords (mkListResourceRecordSetsInput zone None)]).
Proof.
  intros Hsets Hnone Hlast. unfold listResourceRecords. simpl.
  unfold call_records. rewrite Hsets. simpl.
  assert (Hitems : record_items providerName d [] (ResourceRecordSets sets) = []).
  { rewrite record_items_acc. simpl. induction Hnone as [| item rest Hty _ IH];
      [reflexivity |]. simpl. rewrite IH, app_nil_r. unfold record_item.
    destruct (String.eqb_spec (Type_ item) "A"); [contradiction | reflexivity]. }
  rewrite Hitems.
  destruct Hlast as [-> | ->]; [reflexivity |].
  simpl. rewrite andb_false_r. reflexivity.
Qed.

Lemma records_loop_zone fuel d req acc :
  Forall (fun r => exists i, r = ReqRecords i /\ HostedZoneId i = HostedZoneId req)
    (snd (records_loop providerName fuel d req acc)).
Proof.
  destruct (records_loop_chain fuel d req acc) as [-> | [rest [-> Hrest]]];
    [constructor |].
  constructor; [eauto |].
  eapply Forall_impl; [| exact Hrest].
  intros r (i & n & -> & Hz & _). eauto.
Qed.

Lemma zones_items_zone fuel d zones acc :
  Forall (fun r => forall i, r = ReqRecords i -> In (HostedZoneId i) (map Id zones))
    (snd (zones_items providerName fuel d zones acc)).
Proof.
  revert acc. induction zones as [| zone rest IH]; intros acc; simpl;
    [constructor |].
  apply Effects.Forall_bind.
  - apply Effects.Forall_wrap. unfold listResourceRecords.
    eapply Forall_impl; [| apply records_loop_zone].
    intros r [i' [-> Hz]] i Hi. injection Hi as <-. simpl in Hz. left. auto.
  - intros items. eapply Forall_impl; [| apply IH].
    intros r Hr i Hi. right. eauto.
Qed.

Lemma listed_zone_ids_app d l1 l2 :
  listed_zone_ids d (l1 ++ l2) = listed_zone_ids d l1 ++ listed_zone_ids d l2.
Proof. unfold listed_zone_ids. apply flat_map_app. Qed.

Lemma zones_loop_zone fuel d req acc :
  forall i, In (ReqRecords i) (snd (zones_loop providerName fuel d req acc)) ->
  In (HostedZoneId i) (listed_zone_ids d (snd (zones_loop providerName fuel d req acc))).
Proof.
  revert req acc. induction fuel as [| fuel IH]; intros req acc i Hin;
    simpl in *; [contradiction |].
  unfold call_zones in *.
  destruct (ListHostedZones (route53 d) req) as [e | out] eqn:E; simpl in *.
  - destruct Hin as [H | []]. discriminate.
  - pose proof (zones_items_zone (S fuel) d (HostedZones out) acc) as Hz.
    destruct (zones_items providerName (S fuel) d (HostedZones out) acc)
      as [[acc' | e |] l1]; simpl in *.
    + destruct (zones_IsTruncated out && negb (String.eqb (NextMarker out) "")).
      * specialize (IH (SetMarker req (zones_Marker out)) acc' i).
        destruct (zones_loop providerName fuel d _ acc') as [o l2].
        simpl in *. unfold listed_zone_ids at 1. simpl. rewrite E.
        fold (listed_zone_ids d (l1 ++ l2)). rewrite listed_zone_ids_app.
        destruct Hin as [H | Hin]; [discriminate |].
        apply in_app_or in Hin as [Hin | Hin].
        -- apply in_or_app. left. rewrite Forall_forall in Hz. exact (Hz _ Hin i eq_refl).
        -- apply in_or_app. right. apply in_or_app. right. auto.
      * simpl in *. rewrite app_nil_r in *.
        unfold listed_zone_ids at 1. simpl. rewrite E.
        destruct Hin as [H | Hin]; [discriminate |].
        apply in_or_app. left. rewrite Forall_forall in Hz. exact (Hz _ Hin i eq_refl).
    + unfold listed_zone_ids at 1. simpl. rewrite E.
      destruct Hin as [H | Hin]; [discriminate |].
      apply in_or_app. left. rewrite Forall_forall in Hz. exact (Hz _ Hin i eq_refl).
    + unfold listed_zone_ids at 1. simpl. rewrite E.
      destruct Hin as [H | Hin]; [discriminate |].
      apply in_or_app. left. rewrite Forall_forall in Hz. exact (Hz _ Hin i eq_refl).
Qed.

(** [GetResource] lists the records only of zones that a zone page it
    received has listed. *)
Theorem GetResource_records_of_listed_zones fuel d i :
  In (ReqRecords i) (snd (GetResource providerName fuel d)) ->
  In (HostedZoneId i) (listed_zone_ids d (snd (GetResource providerName fuel d))).
Proof. apply zones_loop_zone. Qed.

End MoreRoute53.

(** ** Further properties of the inventory *)

Section MoreInventory.

Variable schemaProvider : Type.
Variable OptionBlock : Type.
Variable GetMetadata : OptionBlock -> string -> option string.
Variables aws_New digitalocean_New gcp_New scaleway_New :
  OptionBlock -> error + schemaProvider.

Let New' := New schemaProvider OptionBlock GetMetadata
  aws_New digitalocean_New gcp_New scaleway_New.

Definition has_provider_key (block : OptionBlock) : bool :=
  match GetMetadata block "provider" with Some _ => true | None => false end.

(** Every block with a [provider] key ends up either as one provider of the
    inventory or as one logged warning, never both and never neither; blocks
    without the key give neither. *)
Theorem New_accounts_for_every_block (options : list OptionBlock) :
  exists inventory,
    fst (New' options) = inr inventory
    /\ length (Providers inventory) + length (snd (New' options))
       = length (filter has_provider_key options).
Proof.
  unfold New', New. rewrite New_loop_spec. simpl.
  eexists. split; [reflexivity |].
  induction options as [| block rest IH]; [reflexivity |]. simpl in IH |- *.
  rewrite !length_app.
  unfold has_provider_key at 1, block_provider at 1, block_failure at 1.
  destruct (GetMetadata block "provider") as [value |]; [| exact IH].
  destruct (nameToProvider _ _ _ _ _ _ value block); simpl; lia.
Qed.

(** Splitting the configuration in two: the inventory of the whole is the
    providers of the first part followed by those of the second, and the
    warnings likewise. *)
Theorem New_app (a b : list OptionBlock) pa wa pb wb :
  New' a = (inr (mkInventory pa), wa) ->
  New' b = (inr (mkInventory pb), wb) ->
  New' (a ++ b) = (inr (mkInventory (pa ++ pb)), wa ++ wb).
Proof.
  unfold New', New. rewrite !New_loop_spec. simpl.
  intros Ha Hb. injection Ha as <- <-. injection Hb as <- <-.
  rewrite !flat_map_app. reflexivity.
Qed.

End MoreInventory.

(** ** Properties of the runner *)

Section MoreRunner.

Variable Level : Type.
Variables LevelVerbose LevelSilent : Level.

(** [configureOutput]: [-silent] wins over [-v]; [-v] alone selects the
    verbose level; with neither flag the logging level is left as it was. *)
Theorem configureOutput_precedence (options : Runner.Options) (MaxLevel : Level) :
  (Runner.Silent options = true ->
   Runner.configureOutput Level LevelVerbose LevelSilent options MaxLevel
   = LevelSilent)
  /\ (Runner.Silent options = false -> Runner.Verbose options = true ->
      Runner.configureOutput Level LevelVerbose LevelSilent options MaxLevel
      = LevelVerbose)
  /\ (Runner.Silent options = false -> Runner.Verbose options = false ->
      Runner.configureOutput Level LevelVerbose LevelSilent options MaxLevel
      = MaxLevel).
Proof.
  unfold Runner.configureOutput.
  split; [| split]; intros Hs; [| intros Hv ..]; rewrite Hs;
    try rewrite Hv; reflexivity.
Qed.

Variable defaultConfigLocation defaultConfigFile : string.
Variable path_Dir : string -> string.
Variable os_Stat : string -> option error.
Variable os_IsNotExist : error -> bool.
Variable ioutil_WriteFile : string -> string -> option error.

Let check := Runner.checkAndCreateConfigFile defaultConfigLocation
  defaultConfigFile path_Dir os_Stat os_IsNotExist ioutil_WriteFile.

(** [checkAndCreateConfigFile] writes a file only when the configuration
    path is the default one and [os.Stat] reports that it does not exist;
    it then writes the default configuration to the default location. An
    existing file, or a [Stat] error other than "not exist", is left alone. *)
Theorem checkAndCreateConfigFile_writes (options : Runner.Options) p c :
  In (Runner.OpWriteFile p c) (check options)
  <-> (Runner.Config options = defaultConfigLocation
       /\ p = defaultConfigLocation /\ c = defaultConfigFile
       /\ exists err, os_Stat defaultConfigLocation = Some err
                      /\ os_IsNotExist err = true).
Proof.
  unfold check, Runner.checkAndCreateConfigFile.
  destruct (String.eqb_spec (Runner.Config options) defaultConfigLocation)
    as [Hc | Hc].
  - destruct (os_Stat defaultConfigLocation) as [err |] eqn:Es.
    + destruct (os_IsNotExist err) eqn:En.
      * destruct (ioutil_WriteFile defaultConfigLocation defaultConfigFile);
          simpl; split.
        all: try (intros [H | [H | [H | [H | []]]]]; try discriminate;
                  injection H as <- <-; repeat split; eauto).
        all: try (intros [H | [H | [H | []]]]; try discriminate;
                  injection H as <- <-; repeat split; eauto).
        all: intros (_ & -> & -> & _); auto.
      * simpl. split.
        -- intros [H | [H | []]]; discriminate.
        -- intros (_ & _ & _ & e & He & Hn). injection He as <-. congruence.
    + simpl. split.
      * intros [H | [H | []]]; discriminate.
      * intros (_ & _ & _ & e & He & _). discriminate.
  - simpl. split; [intros [] | intros [H _]; contradiction].
Qed.

(** [checkAndCreateConfigFile] makes no call unless the configuration path
    is the default one, and it logs a warning exactly when writing the
    default file failed, with the error of the write; it never stops the
    program. *)
Theorem checkAndCreateConfigFile_warns (options : Runner.Options) p e :
  (Runner.Config options <> defaultConfigLocation -> check options = [])
  /\ (In (Runner.OpWarn p e) (check options)
      <-> (Runner.Config options = defaultConfigLocation
           /\ p = defaultConfigLocation
           /\ (exists err, os_Stat defaultConfigLocation = Some err
                           /\ os_IsNotExist err = true)
           /\ ioutil_WriteFile defaultConfigLocation defaultConfigFile = Some e)).
Proof.
  unfold check, Runner.checkAndCreateConfigFile.
  destruct (String.eqb_spec (Runner.Config options) defaultConfigLocation)
    as [Hc | Hc].
  - split; [intros H; contradiction |].
    destruct (os_Stat defaultConfigLocation) as [err |] eqn:Es.
    + destruct (os_IsNotExist err) eqn:En.
      * destruct (ioutil_WriteFile defaultConfigLocation defaultConfigFile)
          as [werr |] eqn:Ew; simpl; split.
        -- intros [H | [H | [H | [H | []]]]]; try discriminate.
           injection H as <- <-. repeat split; eauto.
        -- intros (_ & -> & _ & He). injection He as <-. auto.
        -- intros [H | [H | [H | []]]]; discriminate.
        -- intros (_ & _ & _ & He). discriminate.
      * simpl. split.
        -- intros [H | [H | []]]; discriminate.
        -- intros (_ & _ & (e' & He & Hn) & _). injection He as <-. congruence.
    + simpl. split.
      * intros [H | [H | []]]; discriminate.
      * intros (_ & _ & (e' & He & _) & _). discriminate.
  - split; [reflexivity |]. simpl.
    split; [intros [] | intros [H _]; contradiction].
Qed.

Variable File schemaOptions : Type.
Variable os_Open : string -> error + File.
Variable Decode : File -> error + schemaOptions.
Variable is_EOF : error -> bool.

Let read := Runner.readConfig File schemaOptions os_Open Decode is_EOF.

(** [readConfig] closes the configuration file exactly when it opened it,
    whatever the decoding gives; an open error is returned as it is, and a
    configuration is returned only when decoding produced it (an empty file,
    [io.EOF], gives "invalid configuration file provided"). *)
Theorem readConfig_closes_and_errors (configFile : string) :
  (In Runner.OpClose (snd (read configFile))
   <-> exists file, os_Open configFile = inr file)
  /\ (forall err, os_Open configFile = inl err -> fst (read configFile) = inl err)
  /\ (forall config, fst (read configFile) = inr config ->
      exists file, os_Open configFile = inr file /\ Decode file = inr config)
  /\ (forall file err, os_Open configFile = inr file -> Decode file = inl err ->
      is_EOF err = true ->
      fst (read configFile) = inl (ErrMsg "invalid configuration file provided")).
Proof.
  unfold read, Runner.readConfig.
  destruct (os_Open configFile) as [oerr | file] eqn:Eo; simpl.
  - split; [split; [intros [H | []]; discriminate | intros [f Hf]; discriminate] |].
    split; [intros err H; injection H as ->; reflexivity |].
    split; [intros c H; discriminate |].
    intros f err H; discriminate.
  - split; [split; [intros _; eauto | intros _; right; right; left; reflexivity] |].
    split; [intros err H; discriminate |].
    split.
    + intros config H. exists file. split; [reflexivity |].
      destruct (Decode file) as [err |]; [destruct (is_EOF err); discriminate |].
      injection H as ->. reflexivity.
    + intros f err Hf Hd He. injection Hf as <-. rewrite Hd, He. reflexivity.
Qed.

End MoreRunner.

(** ** Instances of the further properties on concrete inputs *)

Lemma GetResource_is_fetched_pages_witness :
  fst (GetResource "aws" 4 Backends.three_pages_zone_provider)
  = Done (Backends.expected_three_pages "aws")
  /\ Backends.expected_three_pages "aws"
     = fetched_resources "aws" Backends.three_pages_zone_provider
         (snd (GetResource "aws" 4 Backends.three_pages_zone_provider)).
Proof.
  split; [reflexivity |].
  apply (GetResource_is_fetched_pages "aws" 4 Backends.three_pages_zone_provider).
  reflexivity.
Defined.

Lemma GetResource_provider_profile_witness :
  fst (GetResource "aws" 4 Backends.three_pages_zone_provider)
  = Done (Backends.expected_three_pages "aws")
  /\ Forall (fun r => Provider r = "aws" /\ Profile r = "prod")
       (Backends.expected_three_pages "aws").
Proof.
  split; [reflexivity |].
  apply (GetResource_provider_profile "aws" 4 Backends.three_pages_zone_provider).
  reflexivity.
Defined.

Lemma listResourceRecords_no_A_records_witness :
  listResourceRecords "aws" 1 Backends.cname_only_provider "Z1"
  = (Done [], [ReqRecords (mkListResourceRecordSetsInput "Z1" None)]).
Proof.
  apply (listResourceRecords_no_A_records "aws" 0 Backends.cname_only_provider
           "Z1" (mkListResourceRecordSetsOutput
                   [mkResourceRecordSet "www.example.com." "CNAME"
                      [mkResourceRecord (Some "example.com.")]] false "")).
  - reflexivity.
  - repeat constructor. discriminate.
  - left. reflexivity.
Defined.

Lemma GetResource_records_of_listed_zones_witness :
  In (ReqRecords (mkListResourceRecordSetsInput "Z1" (Some "c.example.com.")))
    (snd (GetResource "aws" 4 Backends.three_pages_zone_provider))
  /\ In "Z1" (listed_zone_ids Backends.three_pages_zone_provider
                (snd (GetResource "aws" 4 Backends.three_pages_zone_provider))).
Proof.
  assert (H : In (ReqRecords (mkListResourceRecordSetsInput "Z1"
                                (Some "c.example.com.")))
                (snd (GetResource "aws" 4 Backends.three_pages_zone_provider))).
  { simpl. auto. }
  split; [exact H |].
  exact (GetResource_records_of_listed_zones "aws" 4
           Backends.three_pages_zone_provider _ H).
Defined.

Lemma New_app_witness :
  New string (list (string * string)) Backends.block_lookup
    (Backends.ok_New "aws") Backends.missing_key_New Backends.missing_key_New
    Backends.missing_key_New
    ([[("provider", "aws"); ("profile", "prod")]] ++
     [[("provider", "azure")]; [("profile", "orphan")]])
  = (inr (mkInventory ["aws"]),
     [("azure", "", ErrMsg "invalid provider name found: azure")]).
Proof.
  apply (New_app string (list (string * string)) Backends.block_lookup
           (Backends.ok_New "aws") Backends.missing_key_New
           Backends.missing_key_New Backends.missing_key_New
           [[("provider", "aws"); ("profile", "prod")]]
           [[("provider", "azure")]; [("profile", "orphan")]]
           ["aws"] [] [] [("azure", "", ErrMsg "invalid provider name found: azure")]);
    reflexivity.
Defined.

Lemma configureOutput_precedence_witness :
  Runner.configureOutput nat 5 0
    (Runner.mkOptions false true false true false false "" "" "") 3 = 0
  /\ Runner.configureOutput nat 5 0
       (Runner.mkOptions false false false true false false "" "" "") 3 = 5
  /\ Runner.configureOutput nat 5 0
       (Runner.mkOptions false false false false false false "" "" "") 3 = 3.
Proof.
  destruct (configureOutput_precedence nat 5 0
              (Runner.mkOptions false true false true false false "" "" "") 3)
    as [H1 _].
  destruct (configureOutput_precedence nat 5 0
              (Runner.mkOptions false false false true false false "" "" "") 3)
    as [_ [H2 _]].
  destruct (configureOutput_precedence nat 5 0
              (Runner.mkOptions false false false false false false "" "" "") 3)
    as [_ [_ H3]].
  split; [apply H1; reflexivity |].
  split; [apply H2; reflexivity | apply H3; reflexivity].
Defined.

Lemma checkAndCreateConfigFile_warns_witness :
  Runner.checkAndCreateConfigFile "/home/u/.config/cloudlist/config.yaml" "#"
    (fun _ => "/home/u/.config/cloudlist") (fun _ => Some (ErrMsg "not exist"))
    (fun _ => true) (fun _ _ => Some (ErrMsg "permission denied"))
    (Runner.mkOptions false false false false false false "/tmp/c.yaml" "" "")
  = []
  /\ In (Runner.OpWarn "/home/u/.config/cloudlist/config.yaml"
          (ErrMsg "permission denied"))
       (Runner.checkAndCreateConfigFile "/home/u/.config/cloudlist/config.yaml"
          "#" (fun _ => "/home/u/.config/cloudlist")
          (fun _ => Some (ErrMsg "not exist")) (fun _ => true)
          (fun _ _ => Some (ErrMsg "permission denied"))
          (Runner.mkOptions false false false false false false
             "/home/u/.config/cloudlist/config.yaml" "" "")).
Proof.
  split.
  - apply (checkAndCreateConfigFile_warns "/home/u/.config/cloudlist/config.yaml"
             "#" (fun _ => "/home/u/.config/cloudlist")
             (fun _ => Some (ErrMsg "not exist")) (fun _ => true)
             (fun _ _ => Some (ErrMsg "permission denied"))
             (Runner.mkOptions false false false false false false
                "/tmp/c.yaml" "" "")
             "" (ErrMsg "")).
    discriminate.
  - apply (checkAndCreateConfigFile_warns "/home/u/.config/cloudlist/config.yaml"
             "#" (fun _ => "/home/u/.config/cloudlist")
             (fun _ => Some (ErrMsg "not exist")) (fun _ => true)
             (fun _ _ => Some (ErrMsg "permission denied"))
             (Runner.mkOptions false false false false false false
                "/home/u/.config/cloudlist/config.yaml" "" "")
             "/home/u/.config/cloudlist/config.yaml"
             (ErrMsg "permission denied")).
    split; [reflexivity |]. split; [reflexivity |].
    split; [exists (ErrMsg "not exist"); split; reflexivity | reflexivity].
Defined.

Lemma readConfig_closes_and_errors_witness :
  fst (Runner.readConfig unit unit (fun _ => inr tt)
         (fun _ => inl (ErrMsg "EOF")) (fun _ => true) "config.yaml")
  = inl (ErrMsg "invalid configuration file provided")
  /\ fst (Runner.readConfig unit unit (fun _ => inl (ErrMsg "no such file"))
            (fun _ => inr tt) (fun _ => true) "config.yaml")
     = inl (ErrMsg "no such file").
Proof.
  destruct (readConfig_closes_and_errors unit unit (fun _ => inr tt)
              (fun _ => inl (ErrMsg "EOF")) (fun _ => true) "config.yaml")
    as [_ [_ [_ Heof]]].
  destruct (readConfig_closes_and_errors unit unit
              (fun _ => inl (ErrMsg "no such file")) (fun _ => inr tt)
              (fun _ => true) "config.yaml")
    as [_ [Hopen _]].
  split; [apply (Heof tt (ErrMsg "EOF")); reflexivity |].
  apply Hopen. reflexivity.
Defined.
